(** * generate_image.py: a centred blue square on a white 16:9 canvas

    Shallow embedding of [slide-deck/ai-dev-practice/generate_image.py].
    The script is a straight line of calls into Pillow guarded by one
    [try/except ImportError].  The development has these layers:

    - [Py]: exceptions, paths and the state of the operating system (the
      files and the two standard streams);
    - [ImagingCore]: Pillow's raster images, their allocation and the
      filled rectangle;
    - [Interp]: the monad of a running script (environment, object store,
      exceptions), with [try/except], [sys.exit], [print] and the import;
    - [Image] and [ImageDraw]: the Pillow calls of the script
      ([Image.new], [image.save], [ImageDraw.Draw], [draw.rectangle]);
    - the script itself, its constants under the names of the source. *)

From Stdlib Require Import ZArith Lia String Ascii.
From stdpp Require Import base option list gmap strings.

Local Open Scope string_scope.
Local Open Scope Z_scope.

(** ** The Python runtime fragment *)
Module Py.

(** Exceptions that derive from [Exception]. [ModuleNotFoundError] is a
    subclass of [ImportError]. *)
Inductive Exception :=
| ImportError
| ModuleNotFoundError
| OSError
| MemoryError
| ValueError
| SystemError.

(** [SystemExit] derives from [BaseException] only; it is what [sys.exit]
    raises. *)
Inductive BaseException :=
| Exc (e : Exception)
| SystemExit (code : Z).

(** [isinstance(e, ImportError)], the test of [except ImportError:]. *)
Definition isinstance_ImportError (e : BaseException) : bool :=
  match e with
  | Exc ImportError | Exc ModuleNotFoundError => true
  | _ => false
  end.

(** What the operating system keeps of a process: the files (by absolute
    path) and the text written to the two standard streams. *)
Record OS := mkOS {
  fs : gmap string (list Byte.byte);
  stdout : string;
  stderr : string
}.

Definition newline : string := String "010"%char EmptyString.

(** [os.path.join(cwd, p)] for the paths of interest: an absolute path is
    kept, a relative one is resolved against the working directory. *)
Definition abspath (cwd p : string) : string :=
  if String.prefix "/" p then p else cwd +:+ "/" +:+ p.

(** [os.path.splitext(p)[1]]: the suffix from the last dot on, empty when
    there is no dot (directory separators are not treated). *)
Fixpoint splitext (p : string) : string :=
  match p with
  | EmptyString => EmptyString
  | String c p' =>
      match splitext p' with
      | EmptyString => if Ascii.eqb c "."%char then p else EmptyString
      | ext => ext
      end
  end.

End Py.

(** ** Pillow's raster images

    Pillow is an external library.  Its images are modelled after its core
    structure: a mode, the two sizes and one row of pixels per scan line.
    Only mode ["RGB"] is modelled, a pixel being its three bands. *)
Module ImagingCore.

Definition pixel : Type := Z * Z * Z.

Record Imaging := mkImaging {
  im_mode : string;
  xsize : Z;
  ysize : Z;
  scanlines : list (list pixel)
}.

(** [ImageColor.colormap], restricted to a few of its names. *)
Definition colormap : list (string * pixel) :=
  [ ("black", (0, 0, 0));
    ("white", (255, 255, 255));
    ("red",   (255, 0, 0));
    ("green", (0, 128, 0));
    ("blue",  (0, 0, 255)) ].

Fixpoint assoc {A : Type} (k : string) (l : list (string * A)) : option A :=
  match l with
  | [] => None
  | (k', v) :: l' => if String.eqb k k' then Some v else assoc k l'
  end.

(** [ImageColor.getrgb(color)] on a colour name; [None] stands for its
    [ValueError] (unknown color specifier). *)
Definition getrgb (color : string) : option pixel := assoc color colormap.

(** Modelled from the spec: Pillow's allocation of an image is not part of
    the sources; the spec has the canvas allocated with the given dimensions
    and filled with the background colour
    ([Image.core.fill(mode, size, ink)]): every pixel of a new image is
    [ink]. *)
Definition fill (mode : string) (w h : Z) (ink : pixel) : Imaging :=
  mkImaging mode w h (replicate (Z.to_nat h) (replicate (Z.to_nat w) ink)).

(** Membership in the box of a rectangle, both end points included. *)
Definition in_box (x0 y0 x1 y1 x y : Z) : bool :=
  (x0 <=? x) && (x <=? x1) && (y0 <=? y) && (y <=? y1).

(** Modelled from the spec: Pillow's rectangle fill is not part of the
    sources; the spec has the rectangle (x0, y0)-(x1, y1) filled inclusive,
    the convention Pillow documents for [ImageDraw.rectangle] (the bounding
    box is inclusive of both end points): the pixels of the image whose
    coordinates lie in the box take the ink; what falls outside the image is
    clipped, the others are kept. *)
Definition draw_rectangle (x0 y0 x1 y1 : Z) (ink : pixel) (im : Imaging) : Imaging :=
  mkImaging (im_mode im) (xsize im) (ysize im)
    (imap (fun (j : nat) (row : list pixel) =>
             imap (fun (i : nat) (p : pixel) =>
                     if in_box x0 y0 x1 y1 (Z.of_nat i) (Z.of_nat j) then ink else p)
                  row)
          (scanlines im)).

(** The pixel at column [x] of scan line [y]; [None] outside the image. *)
Definition getpixel (im : Imaging) (x y : Z) : option pixel :=
  if (0 <=? x) && (0 <=? y)
  then scanlines im !! Z.to_nat y ≫= fun row => row !! Z.to_nat x
  else None.

(** The encoders Pillow registers, by file format. *)
Inductive format := PNG | JPEG | GIF | BMP.

(** [Image.EXTENSION], restricted to a few entries. *)
Definition EXTENSION : list (string * format) :=
  [ (".png", PNG); (".apng", PNG); (".jpg", JPEG); (".jpeg", JPEG);
    (".gif", GIF); (".bmp", BMP) ].

End ImagingCore.

Import ImagingCore.

(** ** Running a script: state, environment and exceptions *)
Module Interp.
Import Py.

(** The Pillow calls of the script, as points where the library can fail
    for want of a resource (memory, disk space, permissions). *)
Inductive call := CallNew | CallDraw | CallRectangle | CallSave.

(** What a run depends on and the script does not decide: the working
    directory, whether [PIL] can be imported ([Some e]: the import raises
    [e]), Pillow's encoders (the bytes of a file are a function of the format
    and of the image), which Pillow calls fail ([Some e]: the call raises [e]
    before it has any effect), and the text of the interpreter's traceback
    for an exception nothing handled. *)
Record Runtime := mkRuntime {
  cwd : string;
  import_PIL : option Exception;
  encoder : format -> Imaging -> list Byte.byte;
  fault : call -> option Exception;
  traceback : Exception -> string
}.

(** The interpreter's state: the store of image objects, addressed by
    reference, and the state of the operating system. *)
Record State := mkState {
  heap : list Imaging;
  os : OS
}.

Inductive result (A : Type) :=
| Return (a : A)
| Raise (e : BaseException).
Arguments Return {A} a.
Arguments Raise {A} e.

Definition script (A : Type) : Type := Runtime -> State -> result A * State.

#[export] Instance script_ret : MRet script :=
  fun A (a : A) _ st => (Return a, st).

#[export] Instance script_bind : MBind script :=
  fun A B (k : A -> script B) (m : script A) rt st =>
    match m rt st with
    | (Return a, st') => k a rt st'
    | (Raise e, st') => (Raise e, st')
    end.

Definition raise {A : Type} (e : BaseException) : script A :=
  fun _ st => (Raise e, st).

(** [try: body except <class>: handler], the class given by its
    [isinstance] test; an exception of another class propagates. *)
Definition try_except {A : Type} (body : script A)
    (isinstance : BaseException -> bool) (handler : script A) : script A :=
  fun rt st =>
    match body rt st with
    | (Raise e, st') => if isinstance e then handler rt st' else (Raise e, st')
    | r => r
    end.

(** [sys.exit(code)]. *)
Definition sys_exit {A : Type} (code : Z) : script A := raise (SystemExit code).

Inductive stream := sys_stdout | sys_stderr.

(** [print(s, file=f)]: the text and a newline are written to the stream. *)
Definition print (s : string) (file : stream) : script unit :=
  fun _ st =>
    let o := os st in
    (Return tt,
     mkState (heap st)
       match file with
       | sys_stdout => mkOS (fs o) (stdout o +:+ s +:+ newline) (stderr o)
       | sys_stderr => mkOS (fs o) (stdout o) (stderr o +:+ s +:+ newline)
       end).

(** [from PIL import Image, ImageDraw]. *)
Definition from_PIL_import_Image_ImageDraw : script unit :=
  fun rt st =>
    match import_PIL rt with
    | None => (Return tt, st)
    | Some e => (Raise (Exc e), st)
    end.

(** A Pillow call first meets the failure the environment has for it. *)
Definition guard (c : call) : script unit :=
  fun rt st =>
    match fault rt c with
    | None => (Return tt, st)
    | Some e => (Raise (Exc e), st)
    end.

(** How a process ends: with an exit status, or on an exception nothing
    handled (the interpreter then prints its traceback to standard error and
    the status is 1). *)
Inductive outcome :=
| Exit (status : Z)
| Unhandled (e : Exception).

Definition exit_status (o : outcome) : Z :=
  match o with
  | Exit n => n
  | Unhandled _ => 1
  end.

(** A process runs a script from an empty object store. [SystemExit] leaves
    with its code and without a traceback. *)
Definition run (p : script unit) (rt : Runtime) (o : OS) : outcome * OS :=
  match p rt (mkState [] o) with
  | (Return _, st) => (Exit 0, os st)
  | (Raise (SystemExit n), st) => (Exit n, os st)
  | (Raise (Exc e), st) =>
      (Unhandled e,
       mkOS (fs (os st)) (stdout (os st)) (stderr (os st) +:+ traceback rt e))
  end.

End Interp.

Import Py Interp.

(** ** The Pillow calls of the script *)

(** An [Image] object is a reference into the store; [ImageDraw.Draw(image)]
    keeps the reference of its image, so that what is drawn through it is
    seen through [image]. *)
Definition Image : Type := nat.

Record ImageDraw := mkDraw { draw_im : Image }.

Module Image.

(** [Image.new(mode, size, color)]. *)
Definition new (mode : string) (size : Z * Z) (color : string) : script Image :=
  guard CallNew;;
  (fun rt st =>
    if negb (String.eqb mode "RGB") || (fst size <? 0) || (snd size <? 0)
    then (Raise (Exc ValueError), st)
    else
      match getrgb color with
      | None => (Raise (Exc ValueError), st)
      | Some ink =>
          (Return (length (heap st)),
           mkState (heap st ++ [fill mode (fst size) (snd size) ink]) (os st))
      end) : script Image.

(** [image.save(fp)]: the format is that of the file name's extension, and
    the file is created or overwritten with the encoding of the image. *)
Definition save (image : Image) (fp : string) : script unit :=
  guard CallSave;;
  (fun rt st =>
    match heap st !! image with
    | None => (Raise (Exc SystemError), st)
    | Some im =>
        match assoc (splitext fp) EXTENSION with
        | None => (Raise (Exc ValueError), st)
        | Some fmt =>
            let o := os st in
            (Return tt,
             mkState (heap st)
               (mkOS (<[abspath (cwd rt) fp := encoder rt fmt im]> (fs o))
                     (stdout o) (stderr o)))
        end
    end) : script unit.

End Image.

Module ImageDraw.

(** [ImageDraw.Draw(image)]. *)
Definition Draw (image : Image) : script ImageDraw :=
  guard CallDraw;;
  (fun rt st =>
    match heap st !! image with
    | None => (Raise (Exc SystemError), st)
    | Some _ => (Return (mkDraw image), st)
    end) : script ImageDraw.

(** [draw.rectangle(xy, fill=color)] with [xy] a list of four numbers. The
    image of [draw] is updated in place. *)
Definition rectangle (draw : ImageDraw) (xy : list Z) (fill : string) : script unit :=
  guard CallRectangle;;
  (fun rt st =>
    match xy, heap st !! draw_im draw, getrgb fill with
    | [x0; y0; x1; y1], Some im, Some ink =>
        if (x1 <? x0) || (y1 <? y0)
        then (Raise (Exc ValueError), st)
        else (Return tt,
              mkState (<[draw_im draw := draw_rectangle x0 y0 x1 y1 ink im]> (heap st))
                      (os st))
    | _, None, _ => (Raise (Exc SystemError), st)
    | _, _, _ => (Raise (Exc ValueError), st)
    end) : script unit.

End ImageDraw.

(** ** The script *)

(** Image dimensions for 16:9 aspect ratio *)
Definition width : Z := 1600.
Definition height : Z := 900.

(** Coordinates for a centered blue square; [//] is floor division. *)
Definition square_size : Z := 600.
Definition x_start : Z := (width - square_size) / 2.
Definition y_start : Z := (height - square_size) / 2.
Definition x_end : Z := x_start + square_size.
Definition y_end : Z := y_start + square_size.

Definition generate_image : script unit :=
  try_except from_PIL_import_Image_ImageDraw
    isinstance_ImportError
    (print "Pillow library not found. Please install it using 'pip install Pillow'" sys_stderr;;
     sys_exit 1);;
  image ← Image.new "RGB" (width, height) "white";
  draw ← ImageDraw.Draw image;
  ImageDraw.rectangle draw [x_start; y_start; x_end; y_end] "blue";;
  Image.save image "test.png";;
  print "Image 'test.png' generated successfully." sys_stdout.

(** * Vocabulary of the properties *)

(** ** The colours and the messages of the script *)

Definition white : pixel := (255, 255, 255).
Definition blue : pixel := (0, 0, 255).

Definition missing_pillow_message : string :=
  "Pillow library not found. Please install it using 'pip install Pillow'".

Definition success_message : string :=
  "Image 'test.png' generated successfully.".

(** The raster of [image] once the rectangle is drawn: what [image.save]
    encodes (lemma [generate_image_success]). *)
Definition rendered : Imaging :=
  draw_rectangle x_start y_start x_end y_end blue (fill "RGB" width height white).

(** The file the script writes, as the operating system names it. *)
Definition output_path (rt : Runtime) : string := abspath (cwd rt) "test.png".

(** A run succeeds when Pillow is importable and none of its calls fails. *)
Definition pillow_available (rt : Runtime) : Prop := import_PIL rt = None.
Definition no_fault (rt : Runtime) : Prop := forall c, fault rt c = None.

(** The first Pillow call of the script that fails, in the order of the
    script: [Image.new], [ImageDraw.Draw], [draw.rectangle], [image.save]. *)
Definition first_fault (rt : Runtime) : option Exception :=
  match fault rt CallNew with
  | Some e => Some e
  | None =>
      match fault rt CallDraw with
      | Some e => Some e
      | None =>
          match fault rt CallRectangle with
          | Some e => Some e
          | None => fault rt CallSave
          end
      end
  end.

(** [produces rt o im]: from the system state [o] the script ends normally
    with [im] as the raster of its one image object, and the output file
    holds the PNG encoding of [im]. *)
Definition produces (rt : Runtime) (o : OS) (im : Imaging) : Prop :=
  exists o',
    generate_image rt (mkState [] o) = (Return tt, mkState [im] o')
    /\ fs o' !! output_path rt = Some (encoder rt PNG im).

(** The three shapes of a run: the handler of the missing library, an
    exception nothing handles, the success. *)
Inductive run_shape (rt : Runtime) (o : OS) : outcome * OS -> Prop :=
| shape_missing e :
    import_PIL rt = Some e -> isinstance_ImportError (Exc e) = true ->
    run_shape rt o
      (Exit 1,
       mkOS (fs o) (stdout o) (stderr o +:+ missing_pillow_message +:+ newline))
| shape_unhandled e :
    (import_PIL rt = Some e /\ isinstance_ImportError (Exc e) = false)
    \/ (pillow_available rt /\ first_fault rt = Some e) ->
    run_shape rt o
      (Unhandled e, mkOS (fs o) (stdout o) (stderr o +:+ traceback rt e))
| shape_success :
    pillow_available rt -> no_fault rt ->
    run_shape rt o
      (Exit 0,
       mkOS (<[output_path rt := encoder rt PNG rendered]> (fs o))
            (stdout o +:+ success_message +:+ newline)
            (stderr o)).

(** ** Squares on a canvas *)

(** The four corners of the box handed to [draw.rectangle]. *)
Definition corners : list (Z * Z) :=
  [(x_start, y_start); (x_end, y_start); (x_start, y_end); (x_end, y_end)].

(** [depicts_square im W H x0 y0 S bg ink]: [im] is a [W]x[H] canvas of colour
    [bg] but for one square of colour [ink], [S] pixels a side, whose top
    left pixel is [(x0, y0)]. *)
Definition depicts_square (im : Imaging) (W H x0 y0 S : Z) (bg ink : pixel) : Prop :=
  xsize im = W /\ ysize im = H /\
  forall x y, 0 <= x < W -> 0 <= y < H ->
    getpixel im x y
    = Some (if (x0 <=? x) && (x <? x0 + S) && (y0 <=? y) && (y <? y0 + S)
            then ink else bg).

(** A square of side [S] at [(x0, y0)] is centred on a [W]x[H] canvas when
    as many columns lie left of it as right of it, and as many rows above it
    as below it. *)
Definition centred (W H x0 y0 S : Z) : Prop :=
  x0 = W - (x0 + S) /\ y0 = H - (y0 + S).

(** ** Environments to run the script in *)

Definition png_signature : list Byte.byte :=
  [Byte.x89; Byte.x50; Byte.x4e; Byte.x47; Byte.x0d; Byte.x0a; Byte.x1a; Byte.x0a].

(** An encoder that writes the PNG signature and the two sizes only. *)
Definition header_encoder (fmt : format) (im : Imaging) : list Byte.byte :=
  match fmt with
  | PNG =>
      png_signature
      ++ match Byte.of_N (Z.to_N (xsize im mod 256)), Byte.of_N (Z.to_N (ysize im mod 256)) with
         | Some w, Some h => [w; h]
         | _, _ => []
         end
  | _ => []
  end.

Definition plain_traceback (e : Exception) : string :=
  "Traceback (most recent call last):" +:+ newline.

(** Pillow installed, nothing fails. *)
Definition rt_pillow : Runtime :=
  mkRuntime "/home/user/deck" None header_encoder (fun _ => None) plain_traceback.

(** Pillow not installed. *)
Definition rt_no_pillow : Runtime :=
  mkRuntime "/home/user/deck" (Some ModuleNotFoundError) header_encoder
    (fun _ => None) plain_traceback.

(** Pillow installed, the write of the file fails. *)
Definition rt_disk_full : Runtime :=
  mkRuntime "/home/user/deck" None header_encoder
    (fun c => match c with CallSave => Some OSError | _ => None end) plain_traceback.

(** A system with no file and nothing on the standard streams. *)
Definition os_fresh : OS := mkOS ∅ "" "".

(** Pillow installed, the rectangle cannot be drawn for want of memory. *)
Definition rt_out_of_memory : Runtime :=
  mkRuntime "/home/user/deck" None header_encoder
    (fun c => match c with CallRectangle => Some MemoryError | _ => None end)
    plain_traceback.

(** A system that holds an earlier "test.png", another file, and text on
    both streams. *)
Definition os_used : OS :=
  mkOS (<["/home/user/deck/test.png" := [Byte.x00] ]>
          {[ "/home/user/deck/notes.txt" := [Byte.x68; Byte.x69] ]})
       "earlier output" "earlier warning".

(** * Properties *)

(** ** The models on small inputs *)

Example splitext_test_png : Py.splitext "test.png" = ".png".
Proof. reflexivity. Qed.

Example splitext_two_dots : Py.splitext "a.tar.gz" = ".gz".
Proof. reflexivity. Qed.

Example splitext_none : Py.splitext "README" = "".
Proof. reflexivity. Qed.

Example abspath_relative : Py.abspath "/home/u/deck" "test.png" = "/home/u/deck/test.png".
Proof. reflexivity. Qed.

Example abspath_absolute : Py.abspath "/home/u/deck" "/tmp/x.png" = "/tmp/x.png".
Proof. reflexivity. Qed.

Example getrgb_white : getrgb "white" = Some (255, 255, 255).
Proof. reflexivity. Qed.

Example getrgb_blue : getrgb "blue" = Some (0, 0, 255).
Proof. reflexivity. Qed.

Example getrgb_unknown : getrgb "bleu" = None.
Proof. reflexivity. Qed.

(** A 4x3 canvas with the box (1,1)-(2,2): both end points are painted. *)
Example draw_rectangle_small :
  scanlines (draw_rectangle 1 1 2 2 (0, 0, 255) (fill "RGB" 4 3 (255, 255, 255)))
  = [ [(255,255,255); (255,255,255); (255,255,255); (255,255,255)];
      [(255,255,255); (0,0,255);     (0,0,255);     (255,255,255)];
      [(255,255,255); (0,0,255);     (0,0,255);     (255,255,255)] ].
Proof. reflexivity. Qed.

(** A box that leaves the canvas is clipped. *)
Example draw_rectangle_clipped :
  scanlines (draw_rectangle 2 (-1) 7 1 (0, 0, 255) (fill "RGB" 3 3 (255, 255, 255)))
  = [ [(255,255,255); (255,255,255); (0,0,255)];
      [(255,255,255); (255,255,255); (0,0,255)];
      [(255,255,255); (255,255,255); (255,255,255)] ].
Proof. reflexivity. Qed.

Example getpixel_outside :
  getpixel (fill "RGB" 4 3 (255, 255, 255)) 4 0 = None.
Proof. reflexivity. Qed.

(** What is drawn through [draw] is seen through [image], and saved. *)
Example draw_then_save_small :
  (image ← Image.new "RGB" (3, 2) "white";
   draw ← ImageDraw.Draw image;
   ImageDraw.rectangle draw [0; 0; 1; 0] "blue";;
   Image.save image "small.png") rt_pillow (mkState [] os_fresh)
  = (Return tt,
     mkState [mkImaging "RGB" 3 2 [[blue; blue; white]; [white; white; white]]]
       (mkOS {[ "/home/user/deck/small.png"
                := (png_signature ++ [Byte.x03; Byte.x02])%list ]} "" "")).
Proof. reflexivity. Qed.

(** A box given with its corners swapped is refused. *)
Example rectangle_swapped_corners :
  fst ((image ← Image.new "RGB" (3, 2) "white";
        draw ← ImageDraw.Draw image;
        ImageDraw.rectangle draw [2; 0; 1; 0] "blue") rt_pillow (mkState [] os_fresh))
  = Raise (Exc ValueError).
Proof. reflexivity. Qed.

Example save_unknown_extension :
  fst ((image ← Image.new "RGB" (3, 2) "white";
        Image.save image "small.xyz") rt_pillow (mkState [] os_fresh))
  = Raise (Exc ValueError).
Proof. reflexivity. Qed.

(** ** Pixels of the raster model *)

Lemma fill_scanline mode w h ink (j : nat) :
  scanlines (fill mode w h ink) !! j
  = if decide (j < Z.to_nat h)%nat then Some (replicate (Z.to_nat w) ink) else None.
Proof.
  unfold fill. cbn [scanlines]. case_decide.
  - by apply lookup_replicate_2.
  - apply lookup_replicate_None. lia.
Qed.

Lemma getpixel_fill mode w h ink x y :
  0 <= x < w -> 0 <= y < h -> getpixel (fill mode w h ink) x y = Some ink.
Proof.
  intros Hx Hy. unfold getpixel.
  replace ((0 <=? x) && (0 <=? y)) with true
    by (symmetry; apply andb_true_intro; split; apply Z.leb_le; lia).
  rewrite fill_scanline. rewrite decide_True by lia.
  cbn. apply lookup_replicate_2. lia.
Qed.

Lemma getpixel_fill_outside mode w h ink x y :
  0 <= w -> 0 <= h -> ~ (0 <= x < w /\ 0 <= y < h) ->
  getpixel (fill mode w h ink) x y = None.
Proof.
  intros Hw Hh Hout. unfold getpixel.
  destruct (0 <=? x) eqn:Ex, (0 <=? y) eqn:Ey; cbn [andb]; try reflexivity.
  apply Z.leb_le in Ex, Ey.
  rewrite fill_scanline. case_decide; [| reflexivity].
  cbn. apply lookup_replicate_None. lia.
Qed.

Lemma getpixel_draw_rectangle x0 y0 x1 y1 ink im x y :
  getpixel (draw_rectangle x0 y0 x1 y1 ink im) x y
  = (fun p => if in_box x0 y0 x1 y1 x y then ink else p) <$> getpixel im x y.
Proof.
  unfold getpixel, draw_rectangle. cbn [scanlines].
  destruct (0 <=? x) eqn:Ex, (0 <=? y) eqn:Ey; cbn [andb]; try reflexivity.
  apply Z.leb_le in Ex, Ey.
  rewrite list_lookup_imap.
  destruct (scanlines im !! Z.to_nat y) as [row |]; cbn; [| reflexivity].
  rewrite list_lookup_imap, !Z2Nat.id by lia. reflexivity.
Qed.

Lemma in_box_spec x0 y0 x1 y1 x y :
  in_box x0 y0 x1 y1 x y = true <-> (x0 <= x <= x1 /\ y0 <= y <= y1).
Proof.
  unfold in_box. rewrite !andb_true_iff, !Z.leb_le. lia.
Qed.

(** The pixels of [rendered]: the ink inside the box, end points included, the
    background elsewhere on the canvas. *)
Lemma rendered_pixel x y :
  0 <= x < width -> 0 <= y < height ->
  getpixel rendered x y
  = Some (if in_box x_start y_start x_end y_end x y then blue else white).
Proof.
  intros Hx Hy. unfold rendered.
  rewrite getpixel_draw_rectangle, getpixel_fill by assumption. reflexivity.
Qed.

Lemma rendered_size : xsize rendered = 1600 /\ ysize rendered = 900.
Proof. split; reflexivity. Qed.

(** ** Stepping through a script *)

Section Steps.
Context {A B : Type}.
Implicit Types (m : script A) (k : A -> script B) (rt : Runtime) (st : State).

Lemma bind_Return m k rt st a st' :
  m rt st = (Return a, st') -> (m ≫= k) rt st = k a rt st'.
Proof. intros E. unfold mbind, script_bind. by rewrite E. Qed.

Lemma bind_Raise m k rt st e st' :
  m rt st = (Raise e, st') -> (m ≫= k) rt st = (Raise e, st').
Proof. intros E. unfold mbind, script_bind. by rewrite E. Qed.

End Steps.

Lemma guard_ok c rt st : fault rt c = None -> guard c rt st = (Return tt, st).
Proof. intros E. unfold guard. by rewrite E. Qed.

Lemma guard_fault c e rt st :
  fault rt c = Some e -> guard c rt st = (Raise (Exc e), st).
Proof. intros E. unfold guard. by rewrite E. Qed.

Lemma try_except_Return {A} (body handler : script A) isinstance rt st a st' :
  body rt st = (Return a, st') ->
  try_except body isinstance handler rt st = (Return a, st').
Proof. intros E. unfold try_except. by rewrite E. Qed.

Lemma try_except_caught {A} (body handler : script A) isinstance rt st e st' :
  body rt st = (Raise e, st') -> isinstance e = true ->
  try_except body isinstance handler rt st = handler rt st'.
Proof. intros E He. unfold try_except. by rewrite E, He. Qed.

Lemma try_except_propagates {A} (body handler : script A) isinstance rt st e st' :
  body rt st = (Raise e, st') -> isinstance e = false ->
  try_except body isinstance handler rt st = (Raise e, st').
Proof. intros E He. unfold try_except. by rewrite E, He. Qed.

(** ** The Pillow calls, one by one *)

Lemma new_ok rt st w h color ink :
  fault rt CallNew = None -> 0 <= w -> 0 <= h -> getrgb color = Some ink ->
  Image.new "RGB" (w, h) color rt st
  = (Return (length (heap st)),
     mkState (heap st ++ [fill "RGB" w h ink]) (os st)).
Proof.
  intros Hf Hw Hh Hc. unfold Image.new.
  rewrite (bind_Return _ _ _ _ tt st) by by apply guard_ok.
  cbn [fst snd]. rewrite Hc.
  replace (w <? 0) with false by (symmetry; apply Z.ltb_ge; lia).
  replace (h <? 0) with false by (symmetry; apply Z.ltb_ge; lia).
  reflexivity.
Qed.

Lemma new_fault rt st mode size color e :
  fault rt CallNew = Some e ->
  Image.new mode size color rt st = (Raise (Exc e), st).
Proof. intros Hf. unfold Image.new. apply bind_Raise. by apply guard_fault. Qed.

Lemma Draw_ok rt st image im :
  fault rt CallDraw = None -> heap st !! image = Some im ->
  ImageDraw.Draw image rt st = (Return (mkDraw image), st).
Proof.
  intros Hf Him. unfold ImageDraw.Draw.
  rewrite (bind_Return _ _ _ _ tt st) by by apply guard_ok.
  by rewrite Him.
Qed.

Lemma Draw_fault rt st image e :
  fault rt CallDraw = Some e -> ImageDraw.Draw image rt st = (Raise (Exc e), st).
Proof. intros Hf. unfold ImageDraw.Draw. apply bind_Raise. by apply guard_fault. Qed.

Lemma rectangle_ok rt st draw im x0 y0 x1 y1 color ink :
  fault rt CallRectangle = None -> heap st !! draw_im draw = Some im ->
  getrgb color = Some ink -> x0 <= x1 -> y0 <= y1 ->
  ImageDraw.rectangle draw [x0; y0; x1; y1] color rt st
  = (Return tt,
     mkState (<[draw_im draw := draw_rectangle x0 y0 x1 y1 ink im]> (heap st)) (os st)).
Proof.
  intros Hf Him Hc Hx Hy. unfold ImageDraw.rectangle.
  rewrite (bind_Return _ _ _ _ tt st) by by apply guard_ok.
  rewrite Him, Hc.
  replace (x1 <? x0) with false by (symmetry; apply Z.ltb_ge; lia).
  replace (y1 <? y0) with false by (symmetry; apply Z.ltb_ge; lia).
  reflexivity.
Qed.

Lemma rectangle_fault rt st draw xy color e :
  fault rt CallRectangle = Some e ->
  ImageDraw.rectangle draw xy color rt st = (Raise (Exc e), st).
Proof. intros Hf. unfold ImageDraw.rectangle. apply bind_Raise. by apply guard_fault. Qed.

Lemma save_ok rt st image im fp fmt :
  fault rt CallSave = None -> heap st !! image = Some im ->
  assoc (splitext fp) EXTENSION = Some fmt ->
  Image.save image fp rt st
  = (Return tt,
     mkState (heap st)
       (mkOS (<[abspath (cwd rt) fp := encoder rt fmt im]> (fs (os st)))
             (stdout (os st)) (stderr (os st)))).
Proof.
  intros Hf Him Hx. unfold Image.save.
  rewrite (bind_Return _ _ _ _ tt st) by by apply guard_ok.
  by rewrite Him, Hx.
Qed.

Lemma save_fault rt st image fp e :
  fault rt CallSave = Some e -> Image.save image fp rt st = (Raise (Exc e), st).
Proof. intros Hf. unfold Image.save. apply bind_Raise. by apply guard_fault. Qed.

(** ** The runs of the script *)

Lemma import_ok rt st :
  import_PIL rt = None ->
  try_except from_PIL_import_Image_ImageDraw isinstance_ImportError
    (print missing_pillow_message sys_stderr;; sys_exit 1) rt st
  = (Return tt, st).
Proof.
  intros Hi. apply try_except_Return.
  unfold from_PIL_import_Image_ImageDraw. by rewrite Hi.
Qed.

(** With Pillow and without a failing call, the script runs to its end: the
    store holds the one image, drawn, its PNG encoding is in the file and the
    confirmation is on standard output. *)
Lemma generate_image_success rt o :
  pillow_available rt -> no_fault rt ->
  generate_image rt (mkState [] o)
  = (Return tt,
     mkState [rendered]
       (mkOS (<[output_path rt := encoder rt PNG rendered]> (fs o))
             (stdout o +:+ success_message +:+ newline)
             (stderr o))).
Proof.
  intros Hi Hf. unfold generate_image.
  erewrite bind_Return by (by apply import_ok).
  erewrite bind_Return
    by (apply (new_ok _ _ width height "white" white); [apply Hf | done | done | done]).
  cbn [heap os app length].
  erewrite bind_Return by (by eapply Draw_ok; [apply Hf |]).
  erewrite bind_Return
    by (eapply (rectangle_ok _ _ _ _ _ _ _ _ "blue" blue);
        [apply Hf | reflexivity | reflexivity | done | done]).
  cbn [heap os draw_im].
  erewrite bind_Return by (eapply save_ok; [apply Hf | reflexivity | reflexivity]).
  reflexivity.
Qed.

(** Without Pillow the handler of [ImportError] prints its line on standard
    error and raises [SystemExit(1)]; nothing after the [try] is reached. *)
Lemma generate_image_no_pillow rt st e :
  import_PIL rt = Some e -> isinstance_ImportError (Exc e) = true ->
  generate_image rt st
  = (Raise (SystemExit 1),
     mkState (heap st)
       (mkOS (fs (os st)) (stdout (os st))
             (stderr (os st) +:+ missing_pillow_message +:+ newline))).
Proof.
  intros Hi He. unfold generate_image.
  apply bind_Raise.
  erewrite try_except_caught;
    [| unfold from_PIL_import_Image_ImageDraw; by rewrite Hi | exact He].
  reflexivity.
Qed.

(** An import that raises anything but an [ImportError] is not handled. *)
Lemma generate_image_import_raises rt st e :
  import_PIL rt = Some e -> isinstance_ImportError (Exc e) = false ->
  generate_image rt st = (Raise (Exc e), st).
Proof.
  intros Hi He. unfold generate_image.
  apply bind_Raise.
  eapply try_except_propagates; [| exact He].
  unfold from_PIL_import_Image_ImageDraw. by rewrite Hi.
Qed.

(** The first Pillow call that fails ends the script with its exception;
    the operating system has seen nothing of the run yet. *)
Lemma generate_image_fault rt o e :
  pillow_available rt -> first_fault rt = Some e ->
  exists hp, generate_image rt (mkState [] o) = (Raise (Exc e), mkState hp o).
Proof.
  intros Hi Hf. unfold first_fault in Hf. unfold generate_image.
  erewrite bind_Return by (by apply import_ok).
  destruct (fault rt CallNew) as [e1 |] eqn:E1.
  { injection Hf as ->. eexists. apply bind_Raise. by apply new_fault. }
  erewrite bind_Return
    by (apply (new_ok _ _ width height "white" white); [exact E1 | done | done | done]).
  cbn [heap os app length].
  destruct (fault rt CallDraw) as [e2 |] eqn:E2.
  { injection Hf as ->. eexists. apply bind_Raise. by apply Draw_fault. }
  erewrite bind_Return by (by eapply Draw_ok; [exact E2 |]).
  destruct (fault rt CallRectangle) as [e3 |] eqn:E3.
  { injection Hf as ->. eexists. apply bind_Raise. by apply rectangle_fault. }
  erewrite bind_Return
    by (eapply (rectangle_ok _ _ _ _ _ _ _ _ "blue" blue);
        [exact E3 | reflexivity | reflexivity | done | done]).
  cbn [heap os draw_im].
  eexists. apply bind_Raise. by apply save_fault.
Qed.

Lemma success_produces rt o :
  pillow_available rt -> no_fault rt -> produces rt o rendered.
Proof.
  intros Hi Hf. eexists. split; [by apply generate_image_success |].
  cbn [fs]. apply lookup_insert_eq.
Qed.

Lemma produces_inj rt o im1 im2 : produces rt o im1 -> produces rt o im2 -> im1 = im2.
Proof. intros (o1 & E1 & _) (o2 & E2 & _). congruence. Qed.

Lemma run_success rt o :
  pillow_available rt -> no_fault rt ->
  run generate_image rt o
  = (Exit 0,
     mkOS (<[output_path rt := encoder rt PNG rendered]> (fs o))
          (stdout o +:+ success_message +:+ newline)
          (stderr o)).
Proof.
  intros Hi Hf. unfold run. by rewrite generate_image_success.
Qed.

Lemma output_path_relative rt : output_path rt = cwd rt +:+ "/test.png".
Proof. reflexivity. Qed.

Lemma box_constants :
  x_start = 500 /\ y_start = 150 /\ x_end = 1100 /\ y_end = 750.
Proof. repeat split; reflexivity. Qed.

Lemma blue_neq_white : blue <> white.
Proof. discriminate. Qed.

(** The pixels of [rendered] by the numbers of the box. *)
Lemma rendered_blue x y :
  500 <= x <= 1100 -> 150 <= y <= 750 -> getpixel rendered x y = Some blue.
Proof.
  intros Hx Hy. rewrite rendered_pixel by (unfold width, height; lia).
  rewrite (proj2 (in_box_spec _ _ _ _ x y)); [reflexivity |].
  destruct box_constants as (-> & -> & -> & ->). lia.
Qed.

Lemma rendered_white x y :
  0 <= x < 1600 -> 0 <= y < 900 -> ~ (500 <= x <= 1100 /\ 150 <= y <= 750) ->
  getpixel rendered x y = Some white.
Proof.
  intros Hx Hy Hout. rewrite rendered_pixel by (unfold width, height; lia).
  destruct (in_box x_start y_start x_end y_end x y) eqn:E; [| reflexivity].
  apply in_box_spec in E.
  destruct box_constants as (Ex0 & Ey0 & Ex1 & Ey1).
  rewrite Ex0, Ey0, Ex1, Ey1 in E. contradiction.
Qed.

(** ** The geometry of the square *)

(** C2: the box of the square comes from floor division of the constants:
    x_start = (1600 - 600) div 2 = 500, y_start = (900 - 600) div 2 = 150,
    x_end = x_start + 600 = 1100, y_end = y_start + 600 = 750, and its corners
    are (500,150), (1100,150), (500,750), (1100,750). *)
Theorem C2_bounding_box :
  x_start = (1600 - 600) / 2 /\ x_start = 500
  /\ y_start = (900 - 600) / 2 /\ y_start = 150
  /\ x_end = x_start + 600 /\ x_end = 1100
  /\ y_end = y_start + 600 /\ y_end = 750
  /\ 2 * x_start <= width - square_size < 2 * x_start + 2
  /\ 2 * y_start <= height - square_size < 2 * y_start + 2
  /\ corners = [(500, 150); (1100, 150); (500, 750); (1100, 750)].
Proof.
  destruct box_constants as (Ex0 & Ey0 & Ex1 & Ey1).
  unfold corners. rewrite Ex0, Ey0, Ex1, Ey1.
  unfold width, height, square_size.
  repeat split; try reflexivity; lia.
Qed.

(** C10: the box lies within the canvas, end points included:
    0 <= x_start, x_end <= width - 1 (1100 <= 1599), 0 <= y_start,
    y_end <= height - 1 (750 <= 899); every point of the box is a pixel of
    the canvas and is painted, so nothing of the square is clipped. *)
Theorem C10_box_within_canvas :
  (0 <= x_start /\ x_end <= width - 1 /\ x_end = 1100 /\ width - 1 = 1599)
  /\ (0 <= y_start /\ y_end <= height - 1 /\ y_end = 750 /\ height - 1 = 899)
  /\ (forall x y, in_box x_start y_start x_end y_end x y = true ->
        (0 <= x < width /\ 0 <= y < height) /\ getpixel rendered x y = Some blue).
Proof.
  destruct box_constants as (Ex0 & Ey0 & Ex1 & Ey1).
  split; [| split].
  - rewrite Ex0, Ex1. unfold width. lia.
  - rewrite Ey0, Ey1. unfold height. lia.
  - intros x y Hbox. pose proof Hbox as Hin. apply in_box_spec in Hin.
    rewrite Ex0, Ey0, Ex1, Ey1 in Hin.
    split; [unfold width, height; lia |].
    apply rendered_blue; lia.
Qed.

Lemma C10_box_within_canvas_witness :
  (0 <= 1100 < width /\ 0 <= 750 < height) /\ getpixel rendered 1100 750 = Some blue.
Proof.
  apply (proj2 (proj2 C10_box_within_canvas) 1100 750). reflexivity.
Defined.

(** ** The pixels of the output *)

(** C4: the fill includes both end points: the pixels at (x_start, y_start)
    and at (x_end, y_end) are painted, columns 500..1100 of rows 150..750 are
    blue and no other pixel is, so the square spans 601x601 pixels. *)
Theorem C4_inclusive_endpoints rt o :
  pillow_available rt -> no_fault rt ->
  exists im, produces rt o im
    /\ getpixel im x_start y_start = Some blue
    /\ getpixel im x_end y_end = Some blue
    /\ (forall x y, 500 <= x <= 1100 -> 150 <= y <= 750 -> getpixel im x y = Some blue)
    /\ (forall x y, getpixel im x y = Some blue -> 500 <= x <= 1100 /\ 150 <= y <= 750)
    /\ x_end - x_start + 1 = 601 /\ y_end - y_start + 1 = 601.
Proof.
  intros Hi Hf. exists rendered.
  split; [by apply success_produces |].
  split; [apply rendered_blue; by vm_compute |].
  split; [apply rendered_blue; by vm_compute |].
  split; [apply rendered_blue |].
  split; [| split; reflexivity].
  intros x y Hb.
  destruct (decide (0 <= x < 1600 /\ 0 <= y < 900)) as [[Hx Hy] | Hout].
  - destruct (decide (500 <= x <= 1100 /\ 150 <= y <= 750)) as [Hin | Hnin]; [exact Hin |].
    rewrite (rendered_white x y Hx Hy Hnin) in Hb. discriminate Hb.
  - unfold rendered in Hb.
    rewrite getpixel_draw_rectangle, getpixel_fill_outside in Hb;
      [discriminate Hb | done | done | exact Hout].
Qed.

Lemma C4_inclusive_endpoints_witness :
  exists im, produces rt_pillow os_fresh im
    /\ getpixel im x_start y_start = Some blue
    /\ getpixel im x_end y_end = Some blue
    /\ (forall x y, 500 <= x <= 1100 -> 150 <= y <= 750 -> getpixel im x y = Some blue)
    /\ (forall x y, getpixel im x y = Some blue -> 500 <= x <= 1100 /\ 150 <= y <= 750)
    /\ x_end - x_start + 1 = 601 /\ y_end - y_start + 1 = 601.
Proof.
  apply (C4_inclusive_endpoints rt_pillow os_fresh); [reflexivity | intros c; reflexivity].
Defined.

(** C5: on every successful run the pixel at (0,0) of the image is white,
    the background, and the pixel at (width/2, height/2) = (800, 450) is
    blue, the fill. *)
Theorem C5_corner_and_centre rt o :
  pillow_available rt -> no_fault rt ->
  exists im, produces rt o im
    /\ getpixel im 0 0 = Some white
    /\ getpixel im (width / 2) (height / 2) = Some blue
    /\ (width / 2, height / 2) = (800, 450)
    /\ getrgb "white" = Some white /\ getrgb "blue" = Some blue.
Proof.
  intros Hi Hf. exists rendered.
  split; [by apply success_produces |].
  split; [apply rendered_white; lia |].
  split; [apply rendered_blue; by vm_compute |].
  repeat split.
Qed.

Lemma C5_corner_and_centre_witness :
  exists im, produces rt_pillow os_fresh im
    /\ getpixel im 0 0 = Some white
    /\ getpixel im (width / 2) (height / 2) = Some blue
    /\ (width / 2, height / 2) = (800, 450)
    /\ getrgb "white" = Some white /\ getrgb "blue" = Some blue.
Proof.
  apply (C5_corner_and_centre rt_pillow os_fresh); [reflexivity | intros c; reflexivity].
Defined.

(** C9: the image has exactly two colours, pixel by pixel: for 0 <= x < 1600
    and 0 <= y < 900 the pixel at (x, y) is blue if and only if
    500 <= x <= 1100 and 150 <= y <= 750, and it is white otherwise. *)
Theorem C9_pixelwise rt o :
  pillow_available rt -> no_fault rt ->
  exists im, produces rt o im /\
    forall x y, 0 <= x < 1600 -> 0 <= y < 900 ->
      (getpixel im x y = Some blue <-> (500 <= x <= 1100 /\ 150 <= y <= 750))
      /\ (~ (500 <= x <= 1100 /\ 150 <= y <= 750) -> getpixel im x y = Some white)
      /\ (getpixel im x y = Some blue \/ getpixel im x y = Some white).
Proof.
  intros Hi Hf. exists rendered.
  split; [by apply success_produces |].
  intros x y Hx Hy.
  destruct (decide (500 <= x <= 1100 /\ 150 <= y <= 750)) as [[Hbx Hby] | Hout].
  - pose proof (rendered_blue x y Hbx Hby) as Hb.
    split; [split; [intros _; by split | intros _; exact Hb] |].
    split; [intros Hn; exfalso; apply Hn; by split | by left].
  - pose proof (rendered_white x y Hx Hy Hout) as Hw.
    split; [split; [| intros Hin; contradiction] |].
    + rewrite Hw. intros Hb. discriminate Hb.
    + split; [intros _; exact Hw | by right].
Qed.

Lemma C9_pixelwise_witness :
  (getpixel rendered 1100 750 = Some blue <-> (500 <= 1100 <= 1100 /\ 150 <= 750 <= 750))
  /\ (~ (500 <= 1100 <= 1100 /\ 150 <= 750 <= 750) -> getpixel rendered 1100 750 = Some white)
  /\ (getpixel rendered 1100 750 = Some blue \/ getpixel rendered 1100 750 = Some white).
Proof.
  destruct (C9_pixelwise rt_pillow os_fresh) as (im & Hp & Hpix);
    [reflexivity | intros c; reflexivity |].
  rewrite <- (produces_inj rt_pillow os_fresh im rendered Hp
                (success_produces rt_pillow os_fresh eq_refl (fun c => eq_refl))).
  apply Hpix; lia.
Defined.

(** ** The effects of a run *)

(** C3: when Pillow cannot be imported the process writes exactly the line
    "Pillow library not found. Please install it using 'pip install Pillow'"
    to standard error and exits with status 1; no file is written, nothing
    goes to standard output and no image is ever allocated. *)
Theorem C3_missing_pillow rt o e :
  import_PIL rt = Some e -> isinstance_ImportError (Exc e) = true ->
  run generate_image rt o
  = (Exit 1,
     mkOS (fs o) (stdout o)
          (stderr o
           +:+ "Pillow library not found. Please install it using 'pip install Pillow'"
           +:+ newline))
  /\ exit_status (fst (run generate_image rt o)) = 1
  /\ heap (snd (generate_image rt (mkState [] o))) = [].
Proof.
  intros Hi He.
  pose proof (generate_image_no_pillow rt (mkState [] o) e Hi He) as E.
  unfold run. rewrite E. cbn [fst snd heap os exit_status].
  repeat split.
Qed.

Lemma C3_missing_pillow_witness :
  run generate_image rt_no_pillow os_fresh
  = (Exit 1,
     mkOS ∅ ""
          ("Pillow library not found. Please install it using 'pip install Pillow'"
           +:+ newline))
  /\ exit_status (fst (run generate_image rt_no_pillow os_fresh)) = 1
  /\ heap (snd (generate_image rt_no_pillow (mkState [] os_fresh))) = [].
Proof.
  apply (C3_missing_pillow rt_no_pillow os_fresh ModuleNotFoundError); reflexivity.
Defined.

(** C7: a successful run has exactly these effects: the file "test.png" of
    the working directory is written, and the one line
    "Image 'test.png' generated successfully." goes to standard output; no
    other file changes and nothing goes to standard error. *)
Theorem C7_effects_of_success rt o :
  pillow_available rt -> no_fault rt ->
  run generate_image rt o
  = (Exit 0,
     mkOS (<[cwd rt +:+ "/test.png" := encoder rt PNG rendered]> (fs o))
          (stdout o +:+ "Image 'test.png' generated successfully." +:+ newline)
          (stderr o))
  /\ (forall p, p <> cwd rt +:+ "/test.png" ->
        fs (snd (run generate_image rt o)) !! p = fs o !! p).
Proof.
  intros Hi Hf. rewrite (run_success rt o Hi Hf).
  split; [reflexivity |].
  intros p Hp. cbn [snd fs].
  rewrite lookup_insert_ne; [reflexivity |].
  rewrite output_path_relative. congruence.
Qed.

Lemma C7_effects_of_success_witness :
  run generate_image rt_pillow os_fresh
  = (Exit 0,
     mkOS {[ "/home/user/deck/test.png" := header_encoder PNG rendered ]}
          ("Image 'test.png' generated successfully." +:+ newline)
          "")
  /\ (forall p, p <> "/home/user/deck/test.png" ->
        fs (snd (run generate_image rt_pillow os_fresh)) !! p = fs os_fresh !! p).
Proof.
  apply (C7_effects_of_success rt_pillow os_fresh); [reflexivity | intros c; reflexivity].
Defined.

(** C8: only the missing library is handled. An import that raises another
    exception, or the first Pillow call that fails (such as the write of
    "test.png"), ends the process on that exception, unhandled: status 1,
    the interpreter's traceback on standard error, and neither the
    diagnostic of the handler nor the confirmation printed. *)
Theorem C8_other_failures_propagate rt o e :
  (import_PIL rt = Some e /\ isinstance_ImportError (Exc e) = false)
  \/ (pillow_available rt /\ first_fault rt = Some e) ->
  fst (run generate_image rt o) = Unhandled e
  /\ exit_status (fst (run generate_image rt o)) = 1
  /\ stdout (snd (run generate_image rt o)) = stdout o
  /\ stderr (snd (run generate_image rt o)) = stderr o +:+ traceback rt e.
Proof.
  intros [[Hi He] | [Hi Hf]].
  - unfold run. rewrite (generate_image_import_raises rt _ e Hi He).
    repeat split.
  - destruct (generate_image_fault rt o e Hi Hf) as (hp & E).
    unfold run. rewrite E. repeat split.
Qed.

Lemma C8_other_failures_propagate_witness :
  fst (run generate_image rt_disk_full os_fresh) = Unhandled OSError
  /\ exit_status (fst (run generate_image rt_disk_full os_fresh)) = 1
  /\ stdout (snd (run generate_image rt_disk_full os_fresh)) = ""
  /\ stderr (snd (run generate_image rt_disk_full os_fresh)) = plain_traceback OSError.
Proof.
  apply (C8_other_failures_propagate rt_disk_full os_fresh OSError).
  right. split; reflexivity.
Defined.

(** C6: the script is deterministic: two successful runs in the same
    directory with the same Pillow write the same bytes to "test.png"
    whatever the system held before, and the second run, which overwrites
    the file of the first, leaves the file system as the first left it. *)
Theorem C6_deterministic rt1 rt2 o1 o2 :
  pillow_available rt1 -> no_fault rt1 ->
  pillow_available rt2 -> no_fault rt2 ->
  cwd rt1 = cwd rt2 -> encoder rt1 = encoder rt2 ->
  (exists bytes,
      fs (snd (run generate_image rt1 o1)) !! (cwd rt1 +:+ "/test.png") = Some bytes
      /\ fs (snd (run generate_image rt2 o2)) !! (cwd rt1 +:+ "/test.png") = Some bytes)
  /\ fst (run generate_image rt2 (snd (run generate_image rt1 o1))) = Exit 0
  /\ fs (snd (run generate_image rt2 (snd (run generate_image rt1 o1))))
     = fs (snd (run generate_image rt1 o1)).
Proof.
  intros Hi1 Hf1 Hi2 Hf2 Hcwd Henc.
  rewrite !(run_success rt1) by assumption.
  rewrite !(run_success rt2) by assumption.
  cbn [fst snd fs].
  rewrite !output_path_relative, <- Hcwd, <- Henc.
  split; [| split].
  - exists (encoder rt1 PNG rendered). split; apply lookup_insert_eq.
  - reflexivity.
  - apply insert_insert_eq.
Qed.

Lemma C6_deterministic_witness :
  (exists bytes,
      fs (snd (run generate_image rt_pillow os_fresh)) !! "/home/user/deck/test.png" = Some bytes
      /\ fs (snd (run generate_image rt_pillow (mkOS ∅ "earlier output" ""))) !! "/home/user/deck/test.png"
         = Some bytes)
  /\ fst (run generate_image rt_pillow (snd (run generate_image rt_pillow os_fresh))) = Exit 0
  /\ fs (snd (run generate_image rt_pillow (snd (run generate_image rt_pillow os_fresh))))
     = fs (snd (run generate_image rt_pillow os_fresh)).
Proof.
  apply (C6_deterministic rt_pillow rt_pillow os_fresh (mkOS ∅ "earlier output" ""));
    first [reflexivity | intros c; reflexivity].
Defined.

(** ** The size of the square *)

Lemma rendered_depicts_601 : depicts_square rendered 1600 900 500 150 601 white blue.
Proof.
  split; [reflexivity | split; [reflexivity |]].
  intros x y Hx Hy.
  destruct ((500 <=? x) && (x <? 500 + 601) && (150 <=? y) && (y <? 150 + 601)) eqn:E.
  - rewrite !andb_true_iff, !Z.leb_le, !Z.ltb_lt in E.
    apply rendered_blue; lia.
  - apply rendered_white; [exact Hx | exact Hy |].
    intros Hin. apply not_true_iff_false in E. apply E.
    rewrite !andb_true_iff, !Z.leb_le, !Z.ltb_lt. lia.
Qed.

(** C1, on the run with Pillow installed from a system without files: the
    file "test.png" holds the PNG encoding of a 1600x900 image that is white
    but for a blue square of 601 pixels a side at (500, 150), which leaves
    500 columns to its left and 499 to its right; the image is not a white
    canvas with a centred 600x600 blue square. *)
Theorem C1_square_is_601_not_600 :
  produces rt_pillow os_fresh rendered
  /\ fs (snd (run generate_image rt_pillow os_fresh)) !! "/home/user/deck/test.png"
     = Some (encoder rt_pillow PNG rendered)
  /\ depicts_square rendered 1600 900 500 150 601 white blue
  /\ (500 = x_start /\ 1600 - (500 + 601) = 499)
  /\ ~ (exists x0 y0,
          centred 1600 900 x0 y0 square_size
          /\ depicts_square rendered 1600 900 x0 y0 square_size white blue).
Proof.
  assert (Hp : pillow_available rt_pillow) by reflexivity.
  assert (Hf : no_fault rt_pillow) by (intros c; reflexivity).
  split; [by apply success_produces |].
  split; [rewrite (run_success _ _ Hp Hf); apply lookup_insert_eq |].
  split; [exact rendered_depicts_601 |].
  split; [split; reflexivity |].
  intros (x0 & y0 & [Hcx Hcy] & _ & _ & Hpix).
  unfold square_size in *.
  specialize (Hpix 1100 450 ltac:(lia) ltac:(lia)).
  rewrite rendered_blue in Hpix by lia.
  replace (1100 <? x0 + 600) with false in Hpix
    by (symmetry; apply Z.ltb_ge; lia).
  rewrite andb_false_r in Hpix. cbn [andb] in Hpix.
  discriminate Hpix.
Qed.

(** * Further properties of the script *)

(** ** Every run is one of three *)

Lemma first_fault_None rt : first_fault rt = None -> no_fault rt.
Proof.
  unfold first_fault. intros H c.
  destruct (fault rt CallNew) eqn:E1; [discriminate H |].
  destruct (fault rt CallDraw) eqn:E2; [discriminate H |].
  destruct (fault rt CallRectangle) eqn:E3; [discriminate H |].
  by destruct c.
Qed.

Lemma no_fault_first_fault rt : no_fault rt -> first_fault rt = None.
Proof. intros H. unfold first_fault. by rewrite !H. Qed.

Lemma run_cases rt o : run_shape rt o (run generate_image rt o).
Proof.
  destruct (import_PIL rt) as [e |] eqn:Hi.
  - destruct (isinstance_ImportError (Exc e)) eqn:He.
    + unfold run. rewrite (generate_image_no_pillow rt _ e Hi He).
      cbn [os fs stdout stderr]. by apply (shape_missing rt o e).
    + unfold run. rewrite (generate_image_import_raises rt _ e Hi He).
      cbn [os]. apply shape_unhandled. left. by split.
  - destruct (first_fault rt) as [e |] eqn:Hf.
    + destruct (generate_image_fault rt o e Hi Hf) as (hp & E).
      unfold run. rewrite E. cbn [os]. apply shape_unhandled. right. by split.
    + apply first_fault_None in Hf.
      rewrite (run_success rt o Hi Hf). by apply shape_success.
Qed.

Lemma string_app_nil_r (s : string) : s +:+ "" = s.
Proof.
  induction s as [| c s IH]; [reflexivity |].
  change (String c (s +:+ "") = String c s). by rewrite IH.
Qed.

(** ** The exit status *)

(** X1: whatever the environment, the exit status of a run is 0 or 1; it is
    0 exactly when Pillow is importable and none of its calls fails, and a
    status 0 tells that "test.png" holds the PNG encoding of the image and
    that the confirmation is on standard output. *)
Theorem X1_exit_status rt o :
  (exit_status (fst (run generate_image rt o)) = 0
   \/ exit_status (fst (run generate_image rt o)) = 1)
  /\ (exit_status (fst (run generate_image rt o)) = 0
      <-> pillow_available rt /\ no_fault rt)
  /\ (exit_status (fst (run generate_image rt o)) = 0 ->
        fs (snd (run generate_image rt o)) !! (cwd rt +:+ "/test.png")
        = Some (encoder rt PNG rendered)
        /\ stdout (snd (run generate_image rt o))
           = stdout o +:+ "Image 'test.png' generated successfully." +:+ newline).
Proof.
  pose proof (run_cases rt o) as H.
  inversion H as [e Hi He Er | e Hc Er | Hi Hf Er]; cbn [fst snd exit_status fs stdout].
  - split; [by right |]. split; [| intros E; discriminate E].
    split; [intros E; discriminate E |].
    intros [Hp _]. unfold pillow_available in Hp. congruence.
  - split; [by right |]. split; [| intros E; discriminate E].
    split; [intros E; discriminate E |].
    intros [Hp Hn]. unfold pillow_available in Hp.
    destruct Hc as [[Hi _] | [_ Hf]]; [congruence |].
    rewrite (no_fault_first_fault rt Hn) in Hf. discriminate Hf.
  - split; [by left |]. split; [split; [intros _; by split | reflexivity] |].
    intros _. split; [| reflexivity].
    rewrite <- output_path_relative. apply lookup_insert_eq.
Qed.

Lemma X1_exit_status_witness :
  fs (snd (run generate_image rt_pillow os_used)) !! "/home/user/deck/test.png"
  = Some (header_encoder PNG rendered)
  /\ stdout (snd (run generate_image rt_pillow os_used))
     = "earlier output" +:+ "Image 'test.png' generated successfully." +:+ newline.
Proof.
  apply (proj2 (proj2 (X1_exit_status rt_pillow os_used))).
  apply (proj2 (proj1 (proj2 (X1_exit_status rt_pillow os_used)))).
  split; [reflexivity | intros c; reflexivity].
Defined.

(** ** What no run touches *)

(** X2: in every run, successful or not, no file but "test.png" of the
    working directory changes, and the text already on standard output and
    on standard error stays in front of what the run adds. *)
Theorem X2_frame_of_every_run rt o :
  (forall p, p <> cwd rt +:+ "/test.png" ->
     fs (snd (run generate_image rt o)) !! p = fs o !! p)
  /\ (exists out, stdout (snd (run generate_image rt o)) = stdout o +:+ out)
  /\ (exists err, stderr (snd (run generate_image rt o)) = stderr o +:+ err).
Proof.
  pose proof (run_cases rt o) as H.
  inversion H as [e Hi He Er | e Hc Er | Hi Hf Er]; cbn [snd fs stdout stderr].
  - split; [reflexivity |].
    split; [exists ""; by rewrite string_app_nil_r | by eexists].
  - split; [reflexivity |].
    split; [exists ""; by rewrite string_app_nil_r | by eexists].
  - split.
    + intros p Hp. rewrite lookup_insert_ne; [reflexivity |].
      rewrite output_path_relative. congruence.
    + split; [by eexists | exists ""; by rewrite string_app_nil_r].
Qed.

Lemma X2_frame_of_every_run_witness :
  fs (snd (run generate_image rt_pillow os_used)) !! "/home/user/deck/notes.txt"
  = Some [Byte.x68; Byte.x69].
Proof.
  rewrite (proj1 (X2_frame_of_every_run rt_pillow os_used) "/home/user/deck/notes.txt");
    [reflexivity | discriminate].
Defined.

(** X3: the file is written only once the image is drawn: when
    [Image.new], [ImageDraw.Draw] or [draw.rectangle] fails, the file system
    is left as it was (an earlier "test.png" keeps its content), nothing goes
    to standard output and the status is 1. *)
Theorem X3_no_file_unless_drawn rt o c e :
  c <> CallSave -> fault rt c = Some e ->
  fs (snd (run generate_image rt o)) = fs o
  /\ stdout (snd (run generate_image rt o)) = stdout o
  /\ exit_status (fst (run generate_image rt o)) = 1.
Proof.
  intros _ Hc.
  pose proof (run_cases rt o) as H.
  inversion H as [e' Hi He Er | e' Hc' Er | Hi Hf Er]; cbn [fst snd fs stdout exit_status].
  - repeat split.
  - repeat split.
  - rewrite Hf in Hc. discriminate Hc.
Qed.

Lemma X3_no_file_unless_drawn_witness :
  fs (snd (run generate_image rt_out_of_memory os_used)) = fs os_used
  /\ stdout (snd (run generate_image rt_out_of_memory os_used)) = "earlier output"
  /\ exit_status (fst (run generate_image rt_out_of_memory os_used)) = 1.
Proof.
  apply (X3_no_file_unless_drawn rt_out_of_memory os_used CallRectangle MemoryError);
    [discriminate | reflexivity].
Defined.

(** ** The dimensions of the image *)

(** X4: the image of a successful run is an RGB image of exactly the
    dimensions of the script, 1600x900, in the ratio 16:9: it has a pixel at
    (x, y) if and only if 0 <= x < 1600 and 0 <= y < 900; drawing the
    rectangle has not resized it. *)
Theorem X4_saved_image_dimensions rt o :
  pillow_available rt -> no_fault rt ->
  exists im, produces rt o im
    /\ im_mode im = "RGB" /\ xsize im = width /\ ysize im = height
    /\ 9 * xsize im = 16 * ysize im
    /\ forall x y, is_Some (getpixel im x y) <-> (0 <= x < 1600 /\ 0 <= y < 900).
Proof.
  intros Hi Hf. exists rendered.
  split; [by apply success_produces |].
  do 4 (split; [reflexivity |]).
  intros x y. split.
  - intros [p Hp].
    destruct (decide (0 <= x < 1600 /\ 0 <= y < 900)) as [Hin | Hout]; [exact Hin |].
    unfold rendered in Hp.
    rewrite getpixel_draw_rectangle, getpixel_fill_outside in Hp;
      [discriminate Hp | done | done | exact Hout].
  - intros [Hx Hy]. rewrite rendered_pixel by (unfold width, height; lia). by eexists.
Qed.

Lemma X4_saved_image_dimensions_witness :
  exists im, produces rt_pillow os_used im
    /\ im_mode im = "RGB" /\ xsize im = width /\ ysize im = height
    /\ 9 * xsize im = 16 * ysize im
    /\ forall x y, is_Some (getpixel im x y) <-> (0 <= x < 1600 /\ 0 <= y < 900).
Proof.
  apply (X4_saved_image_dimensions rt_pillow os_used); [reflexivity | intros c; reflexivity].
Defined.

(** ** The object store *)

(** X5: the script draws on the image it allocates and on no other: run in
    an interpreter that already holds image objects, it appends its image
    to the store, draws and saves that one, and leaves every earlier image
    as it was. *)
Theorem X5_earlier_images_untouched rt hp o :
  pillow_available rt -> no_fault rt ->
  generate_image rt (mkState hp o)
  = (Return tt,
     mkState (hp ++ [rendered])
       (mkOS (<[output_path rt := encoder rt PNG rendered]> (fs o))
             (stdout o +:+ success_message +:+ newline)
             (stderr o)))
  /\ (forall i im, hp !! i = Some im ->
        heap (snd (generate_image rt (mkState hp o))) !! i = Some im).
Proof.
  intros Hi Hf.
  assert (E : generate_image rt (mkState hp o)
              = (Return tt,
                 mkState (hp ++ [rendered])
                   (mkOS (<[output_path rt := encoder rt PNG rendered]> (fs o))
                         (stdout o +:+ success_message +:+ newline)
                         (stderr o)))).
  { unfold generate_image.
    erewrite bind_Return by (by apply import_ok).
    erewrite bind_Return
      by (apply (new_ok _ _ width height "white" white); [apply Hf | done | done | done]).
    cbn [heap os].
    erewrite bind_Return
      by (eapply Draw_ok; [apply Hf | by apply list_lookup_middle]).
    erewrite bind_Return
      by (eapply (rectangle_ok _ _ _ _ _ _ _ _ "blue" blue);
          [apply Hf | cbn [heap draw_im]; by apply list_lookup_middle
          | reflexivity | done | done]).
    cbn [heap os draw_im].
    replace (<[length hp := draw_rectangle x_start y_start x_end y_end blue
                              (fill "RGB" width height white)]>
               (hp ++ [fill "RGB" width height white])%list)
      with (hp ++ [rendered])%list.
    2:{ rewrite insert_app_r_alt by lia. by rewrite Nat.sub_diag. }
    erewrite bind_Return
      by (eapply save_ok; [apply Hf | cbn [heap]; by apply list_lookup_middle | reflexivity]).
    reflexivity. }
  split; [exact E |].
  intros i im Him. rewrite E. cbn [snd heap].
  rewrite lookup_app_l; [exact Him |]. by eapply lookup_lt_Some.
Qed.

Lemma X5_earlier_images_untouched_witness :
  generate_image rt_pillow (mkState [fill "RGB" 2 1 white] os_fresh)
  = (Return tt,
     mkState ([fill "RGB" 2 1 white] ++ [rendered])
       (mkOS (<[output_path rt_pillow := encoder rt_pillow PNG rendered]> (fs os_fresh))
             (stdout os_fresh +:+ success_message +:+ newline)
             (stderr os_fresh)))
  /\ (forall i im, [fill "RGB" 2 1 white] !! i = Some im ->
        heap (snd (generate_image rt_pillow (mkState [fill "RGB" 2 1 white] os_fresh))) !! i
        = Some im).
Proof.
  apply (X5_earlier_images_untouched rt_pillow [fill "RGB" 2 1 white] os_fresh);
    [reflexivity | intros c; reflexivity].
Defined.
